(** * Coloring-page converter: the image-generation request/response contract

    A shallow embedding of [generateColoringPage] (services/geminiService.ts)
    and of the part of the @google/genai interface it touches, followed by
    the properties of the request it sends and of the way it classifies the
    reply. *)

From Stdlib Require Import List NArith Bool String Ascii Lia.
Import ListNotations.

Set Implicit Arguments.

(* ================================================================== *)
(** ** JavaScript values used by the service *)
(* ================================================================== *)

Module Js.

(** A JavaScript string is a sequence of UTF-16 code units. *)
Definition jsstring := list N.

(** String literals of the source; all of them are plain ASCII. *)
Definition lit (s : string) : jsstring :=
  map N_of_ascii (list_ascii_of_string s).

(** The line feed a template literal holds at each line break, and the
    double quote of the text-only message. *)
Definition LF : jsstring := [10%N].
Definition DQUOTE : jsstring := [34%N].

(** [a === b] on two strings. *)
Fixpoint str_eqb (a b : jsstring) : bool :=
  match a, b with
  | [], [] => true
  | x :: a', y :: b' => N.eqb x y && str_eqb a' b'
  | _, _ => false
  end.

(** [o === 'lit'] where [o] may be [undefined]. *)
Definition strict_eq (o : option jsstring) (s : jsstring) : bool :=
  match o with
  | Some v => str_eqb v s
  | None => false
  end.

(** WhiteSpace and LineTerminator code units, the ones
    [String.prototype.trim] strips. *)
Definition isTrimmable (c : N) : bool :=
  (N.eqb c 9 || N.eqb c 10 || N.eqb c 11 || N.eqb c 12 || N.eqb c 13
   || N.eqb c 32 || N.eqb c 160 || N.eqb c 5760
   || (N.leb 8192 c && N.leb c 8202)
   || N.eqb c 8232 || N.eqb c 8233 || N.eqb c 8239 || N.eqb c 8287
   || N.eqb c 12288 || N.eqb c 65279)%N.

Fixpoint trimStart (s : jsstring) : jsstring :=
  match s with
  | c :: s' => if isTrimmable c then trimStart s' else s
  | [] => []
  end.

Definition trimEnd (s : jsstring) : jsstring := rev (trimStart (rev s)).

Definition trim (s : jsstring) : jsstring := trimEnd (trimStart s).

(** [hay] has [needle] as a contiguous substring. *)
Definition contains (needle hay : jsstring) : Prop :=
  exists pre post, hay = pre ++ needle ++ post.

Definition startsWith (prefix s : jsstring) : Prop :=
  exists rest, s = prefix ++ rest.

(** Values that are not [Error] instances. *)
Inductive value : Type :=
| VUndefined
| VNull
| VBoolean (b : bool)
| VNumber (n : N)
| VString (s : jsstring).

(** What a [throw] (or a rejected promise) carries: an [Error] instance,
    of which only [message] is read, or anything else. *)
Inductive thrown : Type :=
| ErrorInstance (message : jsstring)
| NotAnError (v : value).

(** How a call ends. *)
Inductive completion (A : Type) : Type :=
| Normal (a : A)
| Throws (t : thrown).

Arguments Normal {A} a.
Arguments Throws {A} t.

(** Optional chaining [o?.f]. *)
Definition chain {A B : Type} (o : option A) (f : A -> option B) : option B :=
  match o with
  | Some a => f a
  | None => None
  end.

End Js.

Import Js.

Notation "o ?. f" := (chain o f) (at level 40, left associativity).

(* ================================================================== *)
(** ** The part of @google/genai the service uses *)
(* ================================================================== *)

Module GenAI.

Record Blob : Type := mkBlob {
  data : option jsstring;
  mimeType : option jsstring
}.

Record Part : Type := mkPart {
  inlineData : option Blob;
  text : option jsstring
}.

Record Content : Type := mkContent {
  parts : option (list Part)
}.

Record Candidate : Type := mkCandidate {
  content : option Content;
  finishReason : option jsstring
}.

(** [response_text] is the value of the [text] accessor of the response; the
    warnings the accessor may write with [console.warn] are left out. *)
Record GenerateContentResponse : Type := mkResponse {
  candidates : option (list Candidate);
  response_text : option jsstring
}.

Inductive Modality : Type :=
| MODALITY_UNSPECIFIED
| TEXT
| IMAGE
| AUDIO.

Record GenerateContentConfig : Type := mkConfig {
  responseModalities : list Modality
}.

Record GenerateContentParameters : Type := mkParameters {
  model : jsstring;
  contents : Content;
  config : GenerateContentConfig
}.

Record GoogleGenAIOptions : Type := mkOptions {
  apiKey : option jsstring
}.

(** A constructed client. *)
Record GoogleGenAI : Type := mkClient {
  options : GoogleGenAIOptions
}.

(** The behaviour of the library and of the service behind it, which the
    repository does not contain: whether [new GoogleGenAI] returns, and how
    a [models.generateContent] call ends given the requests already sent. *)
Record Sdk : Type := mkSdk {
  construct : GoogleGenAIOptions -> completion GoogleGenAI;
  generateContent :
    GoogleGenAI -> list GenerateContentParameters ->
    GenerateContentParameters -> completion GenerateContentResponse
}.

End GenAI.

Import GenAI.

(* ================================================================== *)
(** ** Effects: the environment, the network and the console *)
(* ================================================================== *)

(** [console_error_calls] holds the calls of [console.error] made by the
    code of the service, in order, each with its label and its value. What
    the library writes to the console on its own (the warnings of the [text]
    accessor, through [console.warn]) is not recorded. *)
Record World : Type := mkWorld {
  process_env_API_KEY : option jsstring;
  outbound : list GenerateContentParameters;
  console_error_calls : list (jsstring * thrown)
}.

(** A computation reads and updates the world and ends normally or by a
    throw. *)
Definition M (A : Type) : Type := World -> completion A * World.

Definition ret {A : Type} (a : A) : M A := fun w => (Normal a, w).

Definition throw {A : Type} (t : thrown) : M A := fun w => (Throws t, w).

Definition bind {A B : Type} (m : M A) (k : A -> M B) : M B :=
  fun w =>
    match m w with
    | (Normal a, w') => k a w'
    | (Throws t, w') => (Throws t, w')
    end.

(** [try { body } catch (error) { handler }]. *)
Definition try_catch {A : Type} (body : M A) (handler : thrown -> M A) : M A :=
  fun w =>
    match body w with
    | (Normal a, w') => (Normal a, w')
    | (Throws t, w') => handler t w'
    end.

Notation "x <- m ;; k" := (bind m (fun x => k))
  (at level 100, m at next level, right associativity).
Notation "m ;;; k" := (bind m (fun _ => k))
  (at level 100, right associativity).

Definition read_API_KEY : M (option jsstring) :=
  fun w => (Normal (process_env_API_KEY w), w).

Definition record_console (w : World) (entry : jsstring * thrown) : World :=
  {| process_env_API_KEY := process_env_API_KEY w;
     outbound := outbound w;
     console_error_calls := console_error_calls w ++ [entry] |}.

Definition record_request (w : World) (req : GenerateContentParameters) : World :=
  {| process_env_API_KEY := process_env_API_KEY w;
     outbound := outbound w ++ [req];
     console_error_calls := console_error_calls w |}.

Definition console_error (label : jsstring) (e : thrown) : M unit :=
  fun w => (Normal tt, record_console w (label, e)).

Section Client.

Variable sdk : Sdk.

Definition new_GoogleGenAI (o : GoogleGenAIOptions) : M GoogleGenAI :=
  fun w => (construct sdk o, w).

(** One outbound call: the request is recorded whatever the outcome. *)
Definition models_generateContent (ai : GoogleGenAI)
    (req : GenerateContentParameters) : M GenerateContentResponse :=
  fun w => (generateContent sdk ai (outbound w) req, record_request w req).

End Client.

(* ================================================================== *)
(** ** services/geminiService.ts *)
(* ================================================================== *)

Module LineThickness.
Inductive t : Type := thin | medium | bold.
End LineThickness.

Module ImageQuality.
Inductive t : Type := low | medium | high.
End ImageQuality.

Definition thicknessDescription (lineThickness : LineThickness.t) : jsstring :=
  match lineThickness with
  | LineThickness.thin => lit "thin and delicate outlines"
  | LineThickness.medium => lit "bold outlines"
  | LineThickness.bold => lit "extra bold and thick outlines"
  end.

Definition qualityDescription (imageQuality : ImageQuality.t) : jsstring :=
  match imageQuality with
  | ImageQuality.low => lit "with simple details, suitable for young children"
  | ImageQuality.medium => lit "with a moderate amount of detail"
  | ImageQuality.high => lit "with intricate and fine details, suitable for adults"
  end.

(** The template literal, line by line. *)
Definition prompt (lineThickness : LineThickness.t) (imageQuality : ImageQuality.t)
  : jsstring :=
  lit "Transform this image into a black and white coloring book page. " ++ LF
  ++ lit "The output should have clean, simple, and "
  ++ thicknessDescription lineThickness ++ lit ". " ++ LF
  ++ lit "It should be " ++ qualityDescription imageQuality ++ lit "." ++ LF
  ++ lit "Remove all shading, gradients, and colors. " ++ LF
  ++ lit "Focus on creating clear, distinct lines suitable for coloring. " ++ LF
  ++ lit "The final image should be purely line art.".

Definition MODEL : jsstring := lit "gemini-2.5-flash-image-preview".

(** The argument of the [generateContent] call. *)
Definition request (base64ImageData mimeType : jsstring)
    (lineThickness : LineThickness.t) (imageQuality : ImageQuality.t)
  : GenerateContentParameters :=
  {| model := MODEL;
     contents :=
       {| parts := Some
            [ {| inlineData := Some {| data := Some base64ImageData;
                                       mimeType := Some mimeType |};
                 text := None |};
              {| inlineData := None;
                 text := Some (prompt lineThickness imageQuality) |} ] |};
     config := {| responseModalities := [IMAGE; TEXT] |} |}.

(** The messages of the five [throw] statements. *)
Definition SAFETY_MESSAGE : jsstring :=
  lit "Image generation was blocked due to safety or policy reasons.".

Definition text_only_message (textResponse : jsstring) : jsstring :=
  lit "The model returned a text response instead of an image: "
  ++ DQUOTE ++ textResponse ++ DQUOTE.

Definition NO_IMAGE_MESSAGE : jsstring :=
  lit "Failed to generate an image. The model did not return image data.".

Definition API_ERROR_PREFIX : jsstring := lit "An API error occurred: ".

Definition api_error_message (message : jsstring) : jsstring :=
  API_ERROR_PREFIX ++ message.

Definition UNKNOWN_MESSAGE : jsstring :=
  lit "An unknown error occurred while communicating with the API.".

Definition hasInlineData (part : Part) : bool :=
  match inlineData part with
  | Some _ => true
  | None => false
  end.

(** [response.candidates?.[0]?.content?.parts?.find(part => part.inlineData)] *)
Definition findImagePart (response : GenerateContentResponse) : option Part :=
  candidates response ?. (fun cs => nth_error cs 0) ?. content ?. parts
    ?. (fun ps => find hasInlineData ps).

(** [response.candidates?.[0]?.finishReason] *)
Definition rejectionReasonOf (response : GenerateContentResponse)
  : option jsstring :=
  candidates response ?. (fun cs => nth_error cs 0) ?. finishReason.

(** The body of the [try] block after the awaited call. It makes no call of
    [console.error]. *)
Definition interpret (response : GenerateContentResponse) : M (option jsstring) :=
  let imagePart := findImagePart response in
  match imagePart ?. inlineData with
  | Some blob => ret (data blob)
  | None =>
      let rejectionReason := rejectionReasonOf response in
      if strict_eq rejectionReason (lit "SAFETY")
         || strict_eq rejectionReason (lit "RECITATION")
      then throw (ErrorInstance SAFETY_MESSAGE)
      else
        let textResponse := option_map trim (response_text response) in
        match textResponse with
        | Some (c :: s) => throw (ErrorInstance (text_only_message (c :: s)))
        | Some [] | None => throw (ErrorInstance NO_IMAGE_MESSAGE)
        end
  end.

(** The [catch] block. *)
Definition handler (error : thrown) : M (option jsstring) :=
  console_error (lit "Error generating coloring page:") error ;;;
  match error with
  | ErrorInstance message => throw (ErrorInstance (api_error_message message))
  | NotAnError _ => throw (ErrorInstance UNKNOWN_MESSAGE)
  end.

Definition generateColoringPage (sdk : Sdk)
    (base64ImageData mimeType : jsstring)
    (lineThickness : LineThickness.t) (imageQuality : ImageQuality.t)
  : M (option jsstring) :=
  key <- read_API_KEY ;;
  ai <- new_GoogleGenAI sdk {| apiKey := key |} ;;
  try_catch
    (response <- models_generateContent sdk ai
                   (request base64ImageData mimeType lineThickness imageQuality) ;;
     interpret response)
    handler.

(* ================================================================== *)
(** ** The failure taxonomy and the conditions on a response *)
(* ================================================================== *)

(** The five kinds of failure, each with what it carries. *)
Inductive FailureKind : Type :=
| SafetyBlocked
| TextOnlyResponse (returnedText : jsstring)
| NoImageReturned
| ApiError (underlying : jsstring)
| UnknownError.

Definition message_of (k : FailureKind) : jsstring :=
  match k with
  | SafetyBlocked => SAFETY_MESSAGE
  | TextOnlyResponse returnedText => text_only_message returnedText
  | NoImageReturned => NO_IMAGE_MESSAGE
  | ApiError underlying => api_error_message underlying
  | UnknownError => UNKNOWN_MESSAGE
  end.

(** The error that stands for a failure kind. *)
Definition failure (k : FailureKind) : thrown := ErrorInstance (message_of k).

(** The parts the response scan ranges over: those of the first candidate. *)
Definition partsOf (c : Candidate) : list Part :=
  match content c ?. parts with
  | Some ps => ps
  | None => []
  end.

Definition scannedParts (response : GenerateContentResponse) : list Part :=
  match candidates response ?. (fun cs => nth_error cs 0) with
  | Some c => partsOf c
  | None => []
  end.

Definition noImagePart (response : GenerateContentResponse) : Prop :=
  Forall (fun p => inlineData p = None) (scannedParts response).

Definition safetyOrRecitation (response : GenerateContentResponse) : Prop :=
  rejectionReasonOf response = Some (lit "SAFETY")
  \/ rejectionReasonOf response = Some (lit "RECITATION").

(** The outcome and the final world of a run. *)
Definition outcome {A : Type} (r : completion A * World) : completion A := fst r.
Definition final {A : Type} (r : completion A * World) : World := snd r.

(** The request log grows by exactly the list [l]. *)
Definition sent (w w' : World) (l : list GenerateContentParameters) : Prop :=
  outbound w' = outbound w ++ l.

(** The client is constructed from the key of the environment. *)
Definition constructs (sdk : Sdk) (w : World) (ai : GoogleGenAI) : Prop :=
  construct sdk {| apiKey := process_env_API_KEY w |} = Normal ai.

(** In world [w] the call with argument [req] ends with [o]. *)
Definition callEnds (sdk : Sdk) (w : World) (req : GenerateContentParameters)
    (o : completion GenerateContentResponse) : Prop :=
  exists ai, constructs sdk w ai /\ generateContent sdk ai (outbound w) req = o.

(** What the catch block throws for a caught value, as a failure kind. *)
Definition rethrown (e : thrown) : FailureKind :=
  match e with
  | ErrorInstance message => ApiError message
  | NotAnError _ => UnknownError
  end.

(** *** Concrete libraries, worlds and responses *)

Definition sdk_returning (r : GenerateContentResponse) : Sdk :=
  {| construct := fun o => Normal {| options := o |};
     generateContent := fun _ _ _ => Normal r |}.

Definition sdk_throwing (t : thrown) : Sdk :=
  {| construct := fun o => Normal {| options := o |};
     generateContent := fun _ _ _ => Throws t |}.

Definition world0 : World :=
  {| process_env_API_KEY := Some (lit "key"); outbound := [];
     console_error_calls := [] |}.

Definition client0 : GoogleGenAI :=
  {| options := {| apiKey := Some (lit "key") |} |}.

Definition photo : jsstring := lit "iVBORw0KGgo=".
Definition png : jsstring := lit "image/png".

Definition textPart (s : jsstring) : Part :=
  {| inlineData := None; text := Some s |}.

Definition imagePartOf (d : jsstring) : Part :=
  {| inlineData := Some {| data := Some d; mimeType := Some png |};
     text := None |}.

Definition candidateOf (ps : list Part) (reason : string) : Candidate :=
  {| content := Some {| parts := Some ps |};
     finishReason := Some (lit reason) |}.

Definition response_safety : GenerateContentResponse :=
  {| candidates := Some [candidateOf [] "SAFETY"]; response_text := None |}.

Definition response_recitation : GenerateContentResponse :=
  {| candidates := Some [candidateOf [] "RECITATION"]; response_text := None |}.

Definition response_text_only : GenerateContentResponse :=
  {| candidates := Some [candidateOf [textPart (lit "Sorry, I cannot.")] "STOP"];
     response_text := Some (lit "Sorry, I cannot.") |}.

Definition response_padded_text : GenerateContentResponse :=
  {| candidates := Some [candidateOf [textPart (lit "  no image ")] "STOP"];
     response_text := Some (lit "  no image ") |}.

Definition response_empty : GenerateContentResponse :=
  {| candidates := Some [candidateOf [] "STOP"]; response_text := None |}.

Definition response_blank_text : GenerateContentResponse :=
  {| candidates := Some [candidateOf [textPart (lit "   ")] "STOP"];
     response_text := Some (lit "   ") |}.

Definition response_image : GenerateContentResponse :=
  {| candidates :=
       Some [candidateOf [textPart (lit "Here it is."); imagePartOf (lit "AAAA");
                          imagePartOf (lit "BBBB")] "STOP"];
     response_text := Some (lit "Here it is.") |}.

Definition response_image_in_second_candidate : GenerateContentResponse :=
  {| candidates :=
       Some [candidateOf [textPart (lit "first")] "STOP";
             candidateOf [imagePartOf (lit "CCCC")] "STOP"];
     response_text := Some (lit "first") |}.

(* ================================================================== *)
(** ** App.tsx: the component state, its handlers and the view *)
(* ================================================================== *)

(** [`${v}`] for a [string | undefined]. *)
Definition template (o : option jsstring) : jsstring :=
  match o with
  | Some s => s
  | None => lit "undefined"
  end.

(** A reply is classified into one of the three kinds of the try body. *)
Definition classifiedAs (r : GenerateContentResponse) (k : FailureKind) : Prop :=
  noImagePart r
  /\ ((k = SafetyBlocked /\ safetyOrRecitation r)
      \/ (exists returned,
            k = TextOnlyResponse (trim returned)
            /\ ~ safetyOrRecitation r
            /\ response_text r = Some returned
            /\ trim returned <> [])
      \/ (k = NoImageReturned
          /\ ~ safetyOrRecitation r
          /\ (response_text r = None
              \/ exists returned,
                   response_text r = Some returned /\ trim returned = []))).

Module App.

Record UploadedFile : Type := mkUploadedFile {
  base64 : jsstring;
  mimeType : jsstring;
  previewUrl : jsstring
}.

(** The six [useState] cells. *)
Record State : Type := mkState {
  uploadedFile : option UploadedFile;
  generatedImage : option jsstring;
  isLoading : bool;
  error : option jsstring;
  lineThickness : LineThickness.t;
  imageQuality : ImageQuality.t
}.

Definition initial : State :=
  {| uploadedFile := None;
     generatedImage := None;
     isLoading := false;
     error := None;
     lineThickness := LineThickness.medium;
     imageQuality := ImageQuality.medium |}.

(** A call of one of the state setters, always with a value. *)
Inductive Setter : Type :=
| setUploadedFile (v : option UploadedFile)
| setGeneratedImage (v : option jsstring)
| setIsLoading (v : bool)
| setError (v : option jsstring)
| setLineThickness (v : LineThickness.t)
| setImageQuality (v : ImageQuality.t).

Definition set (call : Setter) (s : State) : State :=
  match call with
  | setUploadedFile v =>
      {| uploadedFile := v; generatedImage := generatedImage s;
         isLoading := isLoading s; error := error s;
         lineThickness := lineThickness s; imageQuality := imageQuality s |}
  | setGeneratedImage v =>
      {| uploadedFile := uploadedFile s; generatedImage := v;
         isLoading := isLoading s; error := error s;
         lineThickness := lineThickness s; imageQuality := imageQuality s |}
  | setIsLoading v =>
      {| uploadedFile := uploadedFile s; generatedImage := generatedImage s;
         isLoading := v; error := error s;
         lineThickness := lineThickness s; imageQuality := imageQuality s |}
  | setError v =>
      {| uploadedFile := uploadedFile s; generatedImage := generatedImage s;
         isLoading := isLoading s; error := v;
         lineThickness := lineThickness s; imageQuality := imageQuality s |}
  | setLineThickness v =>
      {| uploadedFile := uploadedFile s; generatedImage := generatedImage s;
         isLoading := isLoading s; error := error s;
         lineThickness := v; imageQuality := imageQuality s |}
  | setImageQuality v =>
      {| uploadedFile := uploadedFile s; generatedImage := generatedImage s;
         isLoading := isLoading s; error := error s;
         lineThickness := lineThickness s; imageQuality := v |}
  end.

(** The state once the setter calls of a handler are applied, in order. *)
Definition applied (calls : list Setter) (s : State) : State :=
  fold_left (fun acc call => set call acc) calls s.

(** What surrounds the component: the world of the service, the values
    App.tsx hands alone to [console.error], and the value of the
    [#file-upload] input when that element is in the document. *)
Record Page : Type := mkPage {
  world : World;
  reported : list thrown;
  fileUpload : option jsstring
}.

(** [err instanceof Error ? err.message : 'An unknown error occurred.'] *)
Definition shownMessage (err : thrown) : jsstring :=
  match err with
  | ErrorInstance message => message
  | NotAnError _ => lit "An unknown error occurred."
  end.

(** The setter calls made before the awaited call. *)
Definition started : list Setter :=
  [setIsLoading true; setError None; setGeneratedImage None].

(** [handleGenerateClick], reading the state [s] its closure holds. *)
Definition handleGenerateClick (sdk : Sdk) (s : State) (p : Page)
  : list Setter * Page :=
  match uploadedFile s with
  | None => ([setError (Some (lit "Please upload an image first."))], p)
  | Some file =>
      match generateColoringPage sdk (base64 file) (mimeType file)
              (lineThickness s) (imageQuality s) (world p) with
      | (Normal generatedBase64, w) =>
          (started
           ++ [setGeneratedImage
                 (Some (lit "data:image/png;base64," ++ template generatedBase64))]
           ++ [setIsLoading false],
           {| world := w; reported := reported p; fileUpload := fileUpload p |})
      | (Throws err, w) =>
          (started ++ [setError (Some (shownMessage err))]
           ++ [setIsLoading false],
           {| world := w; reported := reported p ++ [err];
              fileUpload := fileUpload p |})
      end
  end.

Definition handleReset (p : Page) : list Setter * Page :=
  ([setUploadedFile None; setGeneratedImage None; setError None;
    setIsLoading false],
   {| world := world p;
      reported := reported p;
      fileUpload := match fileUpload p with
                    | Some _ => Some []
                    | None => None
                    end |}).

(** What a render shows, by the data the markup displays. *)
Inductive View : Type :=
| Nothing
| InitialState (shownError : option jsstring)
| ProcessingState (preview : jsstring)
    (selectedThickness : LineThickness.t) (selectedQuality : ImageQuality.t)
    (spinner : bool) (shownError : option jsstring)
| ResultState (original : jsstring) (coloringPage : jsstring).

Definition renderInitialState (s : State) : View := InitialState (error s).

(** [uploadedFile && (...)] *)
Definition renderProcessingState (s : State) : View :=
  match uploadedFile s with
  | Some file =>
      ProcessingState (previewUrl file) (lineThickness s) (imageQuality s)
        (isLoading s) (error s)
  | None => Nothing
  end.

(** [uploadedFile && generatedImage && (...)] *)
Definition renderResultState (s : State) : View :=
  match uploadedFile s with
  | Some file =>
      match generatedImage s with
      | Some (c :: url) => ResultState (previewUrl file) (c :: url)
      | Some [] | None => Nothing
      end
  | None => Nothing
  end.

Definition CurrentView (s : State) : View :=
  match generatedImage s with
  | Some (_ :: _) => renderResultState s
  | Some [] | None =>
      match uploadedFile s with
      | Some _ => renderProcessingState s
      | None => renderInitialState s
      end
  end.

(** The state after a click on the generate button, and after a reset, when
    no other setter is called while the handler runs. *)
Definition afterGenerate (sdk : Sdk) (s : State) (p : Page) : State :=
  applied (fst (handleGenerateClick sdk s p)) s.

Definition afterReset (s : State) (p : Page) : State :=
  applied (fst (handleReset p)) s.

(** *** A concrete state and page *)

Definition file0 : UploadedFile :=
  {| base64 := photo; mimeType := png; previewUrl := lit "blob:preview" |}.

Definition ready : State :=
  {| uploadedFile := Some file0;
     generatedImage := None;
     isLoading := false;
     error := Some (lit "old error");
     lineThickness := LineThickness.bold;
     imageQuality := ImageQuality.low |}.

Definition page0 : Page :=
  {| world := world0; reported := []; fileUpload := None |}.

End App.

(** A library whose constructor throws. *)
Definition sdk_unconstructible (t : thrown) : Sdk :=
  {| construct := fun _ => Throws t;
     generateContent := fun _ _ _ => Throws t |}.

Definition response_jpeg : GenerateContentResponse :=
  {| candidates :=
       Some [ {| content := Some {| parts := Some
                   [ {| inlineData := Some {| data := Some (lit "AAAA");
                                              mimeType := Some (lit "image/jpeg") |};
                        text := None |} ] |};
                 finishReason := Some (lit "SAFETY") |} ];
     response_text := None |}.

(* ================================================================== *)
(** ** Sanity checks by evaluation *)
(* ================================================================== *)

Example trim_padded : trim (lit "  no image ") = lit "no image".
Proof. reflexivity. Qed.

Example trim_blank : trim (LF ++ lit "   " ++ [160%N; 8232%N]) = [].
Proof. reflexivity. Qed.

Example trim_inner_kept : trim (lit " a b ") = lit "a b".
Proof. reflexivity. Qed.

Example run_image :
  outcome (generateColoringPage (sdk_returning response_image) photo png
             LineThickness.thin ImageQuality.low world0)
  = Normal (Some (lit "AAAA")).
Proof. reflexivity. Qed.

Example run_padded_text :
  outcome (generateColoringPage (sdk_returning response_padded_text) photo png
             LineThickness.bold ImageQuality.high world0)
  = Throws (ErrorInstance
      (lit "An API error occurred: The model returned a text response instead of an image: "
       ++ DQUOTE ++ lit "no image" ++ DQUOTE)).
Proof. reflexivity. Qed.

Example run_logs_then_rethrows :
  console_error_calls
    (final (generateColoringPage (sdk_throwing (NotAnError VNull)) photo png
             LineThickness.thin ImageQuality.low world0))
  = [(lit "Error generating coloring page:", NotAnError VNull)].
Proof. reflexivity. Qed.

Example prompt_medium_high :
  prompt LineThickness.medium ImageQuality.high
  = lit "Transform this image into a black and white coloring book page. " ++ LF
    ++ lit "The output should have clean, simple, and bold outlines. " ++ LF
    ++ lit "It should be with intricate and fine details, suitable for adults." ++ LF
    ++ lit "Remove all shading, gradients, and colors. " ++ LF
    ++ lit "Focus on creating clear, distinct lines suitable for coloring. " ++ LF
    ++ lit "The final image should be purely line art.".
Proof. reflexivity. Qed.

(* ================================================================== *)
(** ** Strings and the response conditions *)
(* ================================================================== *)

Lemma str_eqb_eq (a b : jsstring) : str_eqb a b = true <-> a = b.
Proof.
  revert b; induction a as [|x a IH]; intros [|y b]; simpl;
    try (split; [discriminate | discriminate]); try tauto.
  rewrite andb_true_iff, N.eqb_eq, IH. split.
  - intros [-> ->]; reflexivity.
  - intros H; inversion H; auto.
Qed.

Lemma strict_eq_true (o : option jsstring) (s : jsstring) :
  strict_eq o s = true <-> o = Some s.
Proof.
  destruct o as [v|]; simpl.
  - rewrite str_eqb_eq. split; [intros -> | intros H; inversion H]; reflexivity.
  - split; discriminate.
Qed.

Lemma find_none_iff (ps : list Part) :
  find hasInlineData ps = None <-> Forall (fun p => inlineData p = None) ps.
Proof.
  induction ps as [|p ps IH]; simpl.
  - split; auto.
  - unfold hasInlineData at 1. destruct (inlineData p) eqn:E.
    + split; [discriminate | intros H; inversion H; congruence].
    + rewrite IH. split; [intros H; constructor; assumption
                         | intros H; inversion H; assumption].
Qed.

Lemma find_first (pre post : list Part) (p : Part) (b : Blob) :
  Forall (fun x => inlineData x = None) pre ->
  inlineData p = Some b ->
  find hasInlineData (pre ++ p :: post) = Some p.
Proof.
  intros Hpre Hp. induction Hpre as [|x pre Hx _ IH]; simpl.
  - unfold hasInlineData. rewrite Hp. reflexivity.
  - unfold hasInlineData at 1. rewrite Hx. exact IH.
Qed.

(** A list with some inline-data part splits at the first one. *)
Lemma first_inline_split (ps : list Part) :
  Exists (fun p => inlineData p <> None) ps ->
  exists before p after blob,
    ps = before ++ p :: after
    /\ Forall (fun x => inlineData x = None) before
    /\ inlineData p = Some blob.
Proof.
  induction ps as [|x ps IH]; intros H.
  - inversion H.
  - destruct (inlineData x) as [blob|] eqn:Ex.
    + exists [], x, ps, blob. repeat split; [constructor | assumption].
    + destruct IH as [before [p [after [blob [Hs [Hb Hp]]]]]].
      { inversion H; subst; [congruence | assumption]. }
      exists (x :: before), p, after, blob. subst ps.
      repeat split; [constructor; assumption | assumption].
Qed.

Lemma findImagePart_scanned (r : GenerateContentResponse) :
  findImagePart r = find hasInlineData (scannedParts r).
Proof.
  unfold findImagePart, scannedParts, partsOf.
  destruct (candidates r) as [[|c cs]|]; simpl; try reflexivity.
  destruct (content c) as [ct|]; simpl; [|reflexivity].
  destruct (parts ct); reflexivity.
Qed.

Lemma noImagePart_find (r : GenerateContentResponse) :
  noImagePart r <-> findImagePart r = None.
Proof.
  unfold noImagePart. rewrite findImagePart_scanned, find_none_iff. tauto.
Qed.

Lemma safety_test (r : GenerateContentResponse) :
  strict_eq (rejectionReasonOf r) (lit "SAFETY")
  || strict_eq (rejectionReasonOf r) (lit "RECITATION") = true
  <-> safetyOrRecitation r.
Proof.
  unfold safetyOrRecitation.
  rewrite orb_true_iff, !strict_eq_true. tauto.
Qed.

(* ================================================================== *)
(** ** The try body and the catch block, case by case *)
(* ================================================================== *)

Section Interpret.

Variable r : GenerateContentResponse.
Variable w : World.

Lemma interpret_image (pre post : list Part) (p : Part) (b : Blob) :
  scannedParts r = pre ++ p :: post ->
  Forall (fun x => inlineData x = None) pre ->
  inlineData p = Some b ->
  interpret r w = (Normal (data b), w).
Proof.
  intros Hs Hpre Hp. unfold interpret.
  rewrite findImagePart_scanned, Hs, (@find_first pre post p b Hpre Hp).
  simpl. rewrite Hp. reflexivity.
Qed.

Hypothesis no_image : noImagePart r.

Lemma interpret_safety :
  safetyOrRecitation r ->
  interpret r w = (Throws (failure SafetyBlocked), w).
Proof.
  intros Hs. apply safety_test in Hs. apply noImagePart_find in no_image.
  unfold interpret. rewrite no_image. simpl. rewrite Hs. reflexivity.
Qed.

Lemma interpret_text (s : jsstring) :
  ~ safetyOrRecitation r ->
  response_text r = Some s ->
  trim s <> [] ->
  interpret r w = (Throws (failure (TextOnlyResponse (trim s))), w).
Proof.
  intros Hs Ht Hne. rewrite <- safety_test in Hs.
  apply not_true_is_false in Hs. apply noImagePart_find in no_image.
  unfold interpret. rewrite no_image. simpl. rewrite Hs, Ht. simpl.
  destruct (trim s) as [|c s'] eqn:E; [contradiction | reflexivity].
Qed.

Lemma interpret_nothing :
  ~ safetyOrRecitation r ->
  response_text r = None \/ (exists s, response_text r = Some s /\ trim s = []) ->
  interpret r w = (Throws (failure NoImageReturned), w).
Proof.
  intros Hs Ht. rewrite <- safety_test in Hs.
  apply not_true_is_false in Hs. apply noImagePart_find in no_image.
  unfold interpret. rewrite no_image. simpl. rewrite Hs.
  destruct Ht as [Ht | [s [Ht He]]]; rewrite Ht; simpl.
  - reflexivity.
  - rewrite He. reflexivity.
Qed.

(** Without an image part the try body always throws one of its three
    errors. *)
Lemma interpret_throws :
  exists k, interpret r w = (Throws (failure k), w).
Proof.
  destruct (strict_eq (rejectionReasonOf r) (lit "SAFETY")
            || strict_eq (rejectionReasonOf r) (lit "RECITATION")) eqn:Hs.
  - exists SafetyBlocked. apply interpret_safety, safety_test, Hs.
  - assert (Hn : ~ safetyOrRecitation r)
      by (rewrite <- safety_test, Hs; discriminate).
    destruct (response_text r) as [s|] eqn:Ht.
    + destruct (trim s) as [|c s'] eqn:E.
      * exists NoImageReturned. apply interpret_nothing; eauto.
      * exists (TextOnlyResponse (trim s)).
        apply interpret_text; auto. rewrite E; discriminate.
    + exists NoImageReturned. apply interpret_nothing; auto.
Qed.

End Interpret.

Lemma handler_run (e : thrown) (w : World) :
  handler e w
  = (Throws (failure (rethrown e)),
     record_console w (lit "Error generating coloring page:", e)).
Proof. destruct e; reflexivity. Qed.

(* ================================================================== *)
(** ** Runs of [generateColoringPage] *)
(* ================================================================== *)

Section Run.

Variable sdk : Sdk.
Variables base64ImageData mimeType : jsstring.
Variable lineThickness : LineThickness.t.
Variable imageQuality : ImageQuality.t.
Variable w : World.

Local Abbreviation req :=
  (request base64ImageData mimeType lineThickness imageQuality).
Local Abbreviation run :=
  (generateColoringPage sdk base64ImageData mimeType lineThickness
     imageQuality w).
Local Abbreviation logged e :=
  (record_console (record_request w req)
     (lit "Error generating coloring page:", e)).

(** The constructor runs before the [try]: what it throws passes through
    as it is, and nothing is sent or logged. *)
Lemma run_not_constructed (e : thrown) :
  construct sdk {| apiKey := process_env_API_KEY w |} = Throws e ->
  run = (Throws e, w).
Proof.
  intros H. unfold generateColoringPage, bind, read_API_KEY, new_GoogleGenAI.
  rewrite H. reflexivity.
Qed.

Lemma run_returned (r : GenerateContentResponse) :
  callEnds sdk w req (Normal r) ->
  run = try_catch (interpret r) handler (record_request w req).
Proof.
  intros [ai [Hc Hg]]. unfold constructs in Hc.
  unfold generateColoringPage, bind, read_API_KEY, new_GoogleGenAI,
    try_catch, models_generateContent.
  rewrite Hc, Hg. reflexivity.
Qed.

Lemma run_thrown (e : thrown) :
  callEnds sdk w req (Throws e) ->
  run = (Throws (failure (rethrown e)), logged e).
Proof.
  intros [ai [Hc Hg]]. unfold constructs in Hc.
  unfold generateColoringPage, bind, read_API_KEY, new_GoogleGenAI,
    try_catch, models_generateContent.
  rewrite Hc, Hg. apply handler_run.
Qed.

(** An error thrown by the try body is caught like one of the call. *)
Lemma run_classified (r : GenerateContentResponse) (k : FailureKind) :
  callEnds sdk w req (Normal r) ->
  interpret r (record_request w req)
  = (Throws (failure k), record_request w req) ->
  run = (Throws (failure (ApiError (message_of k))), logged (failure k)).
Proof.
  intros Hc Hi. rewrite (run_returned Hc). unfold try_catch.
  rewrite Hi. apply handler_run.
Qed.

Lemma run_succeeds (r : GenerateContentResponse) (image : option jsstring) :
  callEnds sdk w req (Normal r) ->
  interpret r (record_request w req) = (Normal image, record_request w req) ->
  run = (Normal image, record_request w req).
Proof.
  intros Hc Hi. rewrite (run_returned Hc). unfold try_catch.
  rewrite Hi. reflexivity.
Qed.

(** The try body leaves the world as it finds it. *)
Lemma interpret_world (r : GenerateContentResponse) (w0 : World) :
  snd (interpret r w0) = w0.
Proof.
  unfold interpret.
  destruct (findImagePart r ?. inlineData); [reflexivity|].
  destruct (_ || _); [reflexivity|].
  destruct (option_map trim (response_text r)) as [[|c s]|]; reflexivity.
Qed.

(** Every run, by how the constructor and the call end. *)
Lemma run_cases :
  (exists e, construct sdk {| apiKey := process_env_API_KEY w |} = Throws e
             /\ run = (Throws e, w))
  \/ (exists e, callEnds sdk w req (Throws e)
                /\ run = (Throws (failure (rethrown e)), logged e))
  \/ (exists r image, callEnds sdk w req (Normal r)
                /\ run = (Normal image, record_request w req))
  \/ (exists r e, callEnds sdk w req (Normal r)
                /\ run = (Throws (failure (rethrown e)), logged e)).
Proof.
  destruct (construct sdk {| apiKey := process_env_API_KEY w |}) as [ai|e] eqn:Hc.
  - destruct (generateContent sdk ai (outbound w) req) as [r|e] eqn:Hg.
    + assert (Hends : callEnds sdk w req (Normal r)) by (exists ai; split; assumption).
      pose proof (interpret_world r (record_request w req)) as Hw.
      destruct (interpret r (record_request w req)) as [[image|e] w'] eqn:Hi;
        simpl in Hw; subst w'.
      * right; right; left. exists r, image. split; [assumption|].
        apply (run_succeeds Hends); assumption.
      * right; right; right. exists r, e. split; [assumption|].
        rewrite (run_returned Hends). unfold try_catch. rewrite Hi.
        apply handler_run.
    + right; left. exists e.
      assert (Hends : callEnds sdk w req (Throws e)) by (exists ai; split; assumption).
      split; [assumption | apply run_thrown; assumption].
  - left. exists e. split; [reflexivity | apply run_not_constructed; assumption].
Qed.

End Run.

(* ================================================================== *)
(** ** Classification of a reply without an image *)
(* ================================================================== *)

(** C1, as amended. For every response with no inline-image part among the
    scanned parts and whose finish reason is 'SAFETY' or 'RECITATION',
    generateColoringPage fails with the SafetyBlocked error as re-wrapped by
    its catch block, and with no other error: the thrown Error has the message
    'An API error occurred: ' followed by the SafetyBlocked message. *)
Theorem safety_block_is_rewrapped
    (sdk : Sdk) (base64ImageData mimeType : jsstring)
    (lineThickness : LineThickness.t) (imageQuality : ImageQuality.t)
    (w : World) (r : GenerateContentResponse) :
  callEnds sdk w (request base64ImageData mimeType lineThickness imageQuality)
    (Normal r) ->
  noImagePart r ->
  safetyOrRecitation r ->
  outcome (generateColoringPage sdk base64ImageData mimeType lineThickness
             imageQuality w)
  = Throws (failure (ApiError (message_of SafetyBlocked)))
  /\ message_of (ApiError (message_of SafetyBlocked))
     = lit "An API error occurred: Image generation was blocked due to safety or policy reasons.".
Proof.
  intros Hends Hno Hs. split; [|reflexivity].
  erewrite run_classified; [reflexivity | eassumption |].
  apply interpret_safety; assumption.
Qed.

Lemma safety_block_is_rewrapped_witness :
  outcome (generateColoringPage (sdk_returning response_recitation) photo png
             LineThickness.medium ImageQuality.low world0)
  = Throws (failure (ApiError (message_of SafetyBlocked)))
  /\ message_of (ApiError (message_of SafetyBlocked))
     = lit "An API error occurred: Image generation was blocked due to safety or policy reasons.".
Proof.
  apply (@safety_block_is_rewrapped (sdk_returning response_recitation) photo png
           LineThickness.medium ImageQuality.low world0 response_recitation).
  - exists client0. split; reflexivity.
  - constructor.
  - right. reflexivity.
Defined.

(** C1 as first stated fails: on a reply with no parts and finish reason
    'SAFETY' the error that reaches the caller is not the SafetyBlocked error
    but the ApiError that wraps its message. *)
Lemma safety_block_not_surfaced_bare :
  callEnds (sdk_returning response_safety) world0
    (request photo png LineThickness.thin ImageQuality.low)
    (Normal response_safety)
  /\ noImagePart response_safety
  /\ safetyOrRecitation response_safety
  /\ outcome (generateColoringPage (sdk_returning response_safety) photo png
                LineThickness.thin ImageQuality.low world0)
     <> Throws (failure SafetyBlocked)
  /\ outcome (generateColoringPage (sdk_returning response_safety) photo png
                LineThickness.thin ImageQuality.low world0)
     = Throws (failure (ApiError (message_of SafetyBlocked))).
Proof.
  split; [exists client0; split; reflexivity|].
  split; [constructor|].
  split; [left; reflexivity|].
  split; [|reflexivity].
  vm_compute. intros H. discriminate H.
Qed.

(** C2, as amended. For every response with no inline-image part, a finish
    reason that is neither 'SAFETY' nor 'RECITATION', and a text that is not
    empty once trimmed, generateColoringPage fails with the TextOnlyResponse
    error as re-wrapped by its catch block, and with no other error: the
    message is 'An API error occurred: ' followed by the TextOnlyResponse
    message, which quotes the trimmed text. *)
Theorem text_only_is_rewrapped
    (sdk : Sdk) (base64ImageData mimeType : jsstring)
    (lineThickness : LineThickness.t) (imageQuality : ImageQuality.t)
    (w : World) (r : GenerateContentResponse) (returned : jsstring) :
  callEnds sdk w (request base64ImageData mimeType lineThickness imageQuality)
    (Normal r) ->
  noImagePart r ->
  ~ safetyOrRecitation r ->
  response_text r = Some returned ->
  trim returned <> [] ->
  outcome (generateColoringPage sdk base64ImageData mimeType lineThickness
             imageQuality w)
  = Throws (failure (ApiError (message_of (TextOnlyResponse (trim returned)))))
  /\ message_of (ApiError (message_of (TextOnlyResponse (trim returned))))
     = lit "An API error occurred: The model returned a text response instead of an image: "
       ++ DQUOTE ++ trim returned ++ DQUOTE.
Proof.
  intros Hends Hno Hs Ht Hne. split; [|reflexivity].
  erewrite run_classified; [reflexivity | eassumption |].
  apply interpret_text; assumption.
Qed.

Lemma text_only_is_rewrapped_witness :
  outcome (generateColoringPage (sdk_returning response_text_only) photo png
             LineThickness.bold ImageQuality.medium world0)
  = Throws (failure (ApiError
              (message_of (TextOnlyResponse (trim (lit "Sorry, I cannot."))))))
  /\ message_of (ApiError
                   (message_of (TextOnlyResponse (trim (lit "Sorry, I cannot.")))))
     = lit "An API error occurred: The model returned a text response instead of an image: "
       ++ DQUOTE ++ trim (lit "Sorry, I cannot.") ++ DQUOTE.
Proof.
  apply (@text_only_is_rewrapped (sdk_returning response_text_only) photo png
           LineThickness.bold ImageQuality.medium world0 response_text_only
           (lit "Sorry, I cannot.")).
  - exists client0. split; reflexivity.
  - repeat constructor.
  - intros [H | H]; discriminate H.
  - reflexivity.
  - discriminate.
Defined.

(** C2 as first stated fails: on a reply whose only content is the text
    '  no image ' the error that reaches the caller is not the
    TextOnlyResponse error, with the text as returned or trimmed, but the
    ApiError that wraps the TextOnlyResponse message of the trimmed text. *)
Lemma text_only_not_surfaced_bare :
  callEnds (sdk_returning response_padded_text) world0
    (request photo png LineThickness.thin ImageQuality.low)
    (Normal response_padded_text)
  /\ noImagePart response_padded_text
  /\ ~ safetyOrRecitation response_padded_text
  /\ response_text response_padded_text = Some (lit "  no image ")
  /\ trim (lit "  no image ") = lit "no image"
  /\ outcome (generateColoringPage (sdk_returning response_padded_text) photo png
                LineThickness.thin ImageQuality.low world0)
     <> Throws (failure (TextOnlyResponse (lit "  no image ")))
  /\ outcome (generateColoringPage (sdk_returning response_padded_text) photo png
                LineThickness.thin ImageQuality.low world0)
     <> Throws (failure (TextOnlyResponse (lit "no image")))
  /\ outcome (generateColoringPage (sdk_returning response_padded_text) photo png
                LineThickness.thin ImageQuality.low world0)
     <> Throws (failure (ApiError
                  (message_of (TextOnlyResponse (lit "  no image ")))))
  /\ outcome (generateColoringPage (sdk_returning response_padded_text) photo png
                LineThickness.thin ImageQuality.low world0)
     = Throws (failure (ApiError
                 (message_of (TextOnlyResponse (lit "no image"))))).
Proof.
  split; [exists client0; split; reflexivity|].
  split; [repeat constructor|].
  split; [intros [H | H]; discriminate H|].
  split; [reflexivity|].
  split; [reflexivity|].
  split; [vm_compute; intros H; discriminate H|].
  split; [vm_compute; intros H; discriminate H|].
  split; [vm_compute; intros H; discriminate H|].
  reflexivity.
Qed.

(** C3, as amended. For every response with no inline-image part, a finish
    reason that is neither 'SAFETY' nor 'RECITATION', and no text or a text
    that is empty once trimmed, generateColoringPage fails with the
    NoImageReturned error as re-wrapped by its catch block, and with no other
    error: the message is 'An API error occurred: ' followed by the
    NoImageReturned message. *)
Theorem no_image_is_rewrapped
    (sdk : Sdk) (base64ImageData mimeType : jsstring)
    (lineThickness : LineThickness.t) (imageQuality : ImageQuality.t)
    (w : World) (r : GenerateContentResponse) :
  callEnds sdk w (request base64ImageData mimeType lineThickness imageQuality)
    (Normal r) ->
  noImagePart r ->
  ~ safetyOrRecitation r ->
  response_text r = None
  \/ (exists returned, response_text r = Some returned /\ trim returned = []) ->
  outcome (generateColoringPage sdk base64ImageData mimeType lineThickness
             imageQuality w)
  = Throws (failure (ApiError (message_of NoImageReturned)))
  /\ message_of (ApiError (message_of NoImageReturned))
     = lit "An API error occurred: Failed to generate an image. The model did not return image data.".
Proof.
  intros Hends Hno Hs Ht. split; [|reflexivity].
  erewrite run_classified; [reflexivity | eassumption |].
  apply interpret_nothing; assumption.
Qed.

Lemma no_image_is_rewrapped_witness :
  outcome (generateColoringPage (sdk_returning response_blank_text) photo png
             LineThickness.thin ImageQuality.high world0)
  = Throws (failure (ApiError (message_of NoImageReturned)))
  /\ message_of (ApiError (message_of NoImageReturned))
     = lit "An API error occurred: Failed to generate an image. The model did not return image data.".
Proof.
  apply (@no_image_is_rewrapped (sdk_returning response_blank_text) photo png
           LineThickness.thin ImageQuality.high world0 response_blank_text).
  - exists client0. split; reflexivity.
  - repeat constructor.
  - intros [H | H]; discriminate H.
  - right. exists (lit "   "). split; reflexivity.
Defined.

(** C3 as first stated fails: on a reply with no parts, finish reason 'STOP'
    and no text the error that reaches the caller is not the NoImageReturned
    error but the ApiError that wraps its message. *)
Lemma no_image_not_surfaced_bare :
  callEnds (sdk_returning response_empty) world0
    (request photo png LineThickness.thin ImageQuality.low)
    (Normal response_empty)
  /\ noImagePart response_empty
  /\ ~ safetyOrRecitation response_empty
  /\ response_text response_empty = None
  /\ outcome (generateColoringPage (sdk_returning response_empty) photo png
                LineThickness.thin ImageQuality.low world0)
     <> Throws (failure NoImageReturned)
  /\ outcome (generateColoringPage (sdk_returning response_empty) photo png
                LineThickness.thin ImageQuality.low world0)
     = Throws (failure (ApiError (message_of NoImageReturned))).
Proof.
  split; [exists client0; split; reflexivity|].
  split; [constructor|].
  split; [intros [H | H]; discriminate H|].
  split; [reflexivity|].
  split; [|reflexivity].
  vm_compute. intros H. discriminate H.
Qed.

(* ================================================================== *)
(** ** Exceptions of the call, and the successful reply *)
(* ================================================================== *)

(** C4. If the generateContent call throws an Error, generateColoringPage
    fails with the ApiError failure, whose message is 'An API error
    occurred: ' followed by the message of that Error; if the call throws a
    value that is not an Error, it fails with the UnknownError failure. *)
Theorem call_exception_is_reclassified
    (sdk : Sdk) (base64ImageData mimeType : jsstring)
    (lineThickness : LineThickness.t) (imageQuality : ImageQuality.t)
    (w : World) (e : thrown) :
  callEnds sdk w (request base64ImageData mimeType lineThickness imageQuality)
    (Throws e) ->
  outcome (generateColoringPage sdk base64ImageData mimeType lineThickness
             imageQuality w)
  = Throws
      match e with
      | ErrorInstance message =>
          ErrorInstance (lit "An API error occurred: " ++ message)
      | NotAnError _ =>
          ErrorInstance
            (lit "An unknown error occurred while communicating with the API.")
      end.
Proof.
  intros Hends. rewrite (run_thrown Hends). destruct e; reflexivity.
Qed.

Lemma call_exception_is_reclassified_witness :
  outcome (generateColoringPage
             (sdk_throwing (ErrorInstance (lit "fetch failed"))) photo png
             LineThickness.thin ImageQuality.low world0)
  = Throws (failure (ApiError (lit "fetch failed")))
  /\ outcome (generateColoringPage
                (sdk_throwing (NotAnError (VString (lit "offline")))) photo png
                LineThickness.thin ImageQuality.low world0)
     = Throws (failure UnknownError).
Proof.
  split.
  - apply (@call_exception_is_reclassified
             (sdk_throwing (ErrorInstance (lit "fetch failed"))) photo png
             LineThickness.thin ImageQuality.low world0
             (ErrorInstance (lit "fetch failed"))).
    exists client0. split; reflexivity.
  - apply (@call_exception_is_reclassified
             (sdk_throwing (NotAnError (VString (lit "offline")))) photo png
             LineThickness.thin ImageQuality.low world0
             (NotAnError (VString (lit "offline")))).
    exists client0. split; reflexivity.
Defined.

(** C5. For every response whose scanned parts (those of the first
    candidate) hold at least one part with inline data, generateColoringPage
    succeeds and returns the data field of the first such part, as it is. *)
Theorem first_inline_image_is_returned
    (sdk : Sdk) (base64ImageData mimeType : jsstring)
    (lineThickness : LineThickness.t) (imageQuality : ImageQuality.t)
    (w : World) (r : GenerateContentResponse) :
  callEnds sdk w (request base64ImageData mimeType lineThickness imageQuality)
    (Normal r) ->
  Exists (fun p => inlineData p <> None) (scannedParts r) ->
  exists before imagePart after blob,
    scannedParts r = before ++ imagePart :: after
    /\ Forall (fun p => inlineData p = None) before
    /\ inlineData imagePart = Some blob
    /\ outcome (generateColoringPage sdk base64ImageData mimeType lineThickness
                  imageQuality w)
       = Normal (data blob).
Proof.
  intros Hends Hex.
  destruct (first_inline_split Hex) as [before [p [after [blob [Hs [Hb Hp]]]]]].
  exists before, p, after, blob. repeat split; try assumption.
  erewrite run_succeeds; [reflexivity | eassumption |].
  eapply interpret_image; eassumption.
Qed.

Lemma first_inline_image_is_returned_witness :
  exists before imagePart after blob,
    scannedParts response_image = before ++ imagePart :: after
    /\ Forall (fun p => inlineData p = None) before
    /\ inlineData imagePart = Some blob
    /\ outcome (generateColoringPage (sdk_returning response_image) photo png
                  LineThickness.bold ImageQuality.high world0)
       = Normal (data blob).
Proof.
  apply (@first_inline_image_is_returned (sdk_returning response_image) photo png
           LineThickness.bold ImageQuality.high world0 response_image).
  - exists client0. split; reflexivity.
  - apply Exists_cons_tl, Exists_cons_hd. discriminate.
Defined.

(** C10. Only the first candidate is inspected: for every response whose
    first candidate holds no part with inline data, generateColoringPage
    fails, whatever the later candidates hold. *)
Theorem only_first_candidate_is_inspected
    (sdk : Sdk) (base64ImageData mimeType : jsstring)
    (lineThickness : LineThickness.t) (imageQuality : ImageQuality.t)
    (w : World) (first : Candidate) (later : list Candidate)
    (txt : option jsstring) :
  callEnds sdk w (request base64ImageData mimeType lineThickness imageQuality)
    (Normal {| candidates := Some (first :: later); response_text := txt |}) ->
  Forall (fun p => inlineData p = None) (partsOf first) ->
  exists e,
    outcome (generateColoringPage sdk base64ImageData mimeType lineThickness
               imageQuality w)
    = Throws e.
Proof.
  intros Hends Hno.
  destruct (@interpret_throws
              {| candidates := Some (first :: later); response_text := txt |}
              (record_request w
                 (request base64ImageData mimeType lineThickness imageQuality))
              Hno) as [k Hk].
  exists (failure (ApiError (message_of k))).
  erewrite run_classified; [reflexivity | eassumption | exact Hk].
Qed.

Lemma only_first_candidate_is_inspected_witness :
  exists e,
    outcome (generateColoringPage
               (sdk_returning response_image_in_second_candidate) photo png
               LineThickness.thin ImageQuality.low world0)
    = Throws e.
Proof.
  apply (@only_first_candidate_is_inspected
           (sdk_returning response_image_in_second_candidate) photo png
           LineThickness.thin ImageQuality.low world0
           (candidateOf [textPart (lit "first")] "STOP")
           [candidateOf [imagePartOf (lit "CCCC")] "STOP"]
           (Some (lit "first"))).
  - exists client0. split; reflexivity.
  - repeat constructor.
Defined.

(* ================================================================== *)
(** ** The prompt and the request *)
(* ================================================================== *)

(** C6. For each of the nine combinations of line thickness and detail
    level, the composed prompt contains the fixed phrase of that thickness
    and the fixed phrase of that detail level; it also asks for a black and
    white coloring page that is purely line art, and tells to remove all
    shading, gradients, and colors. *)
Theorem prompt_contains_fixed_phrases
    (lineThickness : LineThickness.t) (imageQuality : ImageQuality.t) :
  contains (thicknessDescription lineThickness)
    (prompt lineThickness imageQuality)
  /\ contains (qualityDescription imageQuality)
       (prompt lineThickness imageQuality)
  /\ contains
       (lit "Transform this image into a black and white coloring book page.")
       (prompt lineThickness imageQuality)
  /\ contains (lit "Remove all shading, gradients, and colors.")
       (prompt lineThickness imageQuality)
  /\ contains (lit "The final image should be purely line art.")
       (prompt lineThickness imageQuality).
Proof.
  repeat split.
  - exists (lit "Transform this image into a black and white coloring book page. "
            ++ LF ++ lit "The output should have clean, simple, and ").
    exists (lit ". " ++ LF
            ++ lit "It should be " ++ qualityDescription imageQuality
            ++ lit "." ++ LF
            ++ lit "Remove all shading, gradients, and colors. " ++ LF
            ++ lit "Focus on creating clear, distinct lines suitable for coloring. "
            ++ LF ++ lit "The final image should be purely line art.").
    reflexivity.
  - exists (lit "Transform this image into a black and white coloring book page. "
            ++ LF ++ lit "The output should have clean, simple, and "
            ++ thicknessDescription lineThickness ++ lit ". " ++ LF
            ++ lit "It should be ").
    exists (lit "." ++ LF
            ++ lit "Remove all shading, gradients, and colors. " ++ LF
            ++ lit "Focus on creating clear, distinct lines suitable for coloring. "
            ++ LF ++ lit "The final image should be purely line art.").
    destruct lineThickness; reflexivity.
  - exists [].
    exists (lit " " ++ LF ++ lit "The output should have clean, simple, and "
            ++ thicknessDescription lineThickness ++ lit ". " ++ LF
            ++ lit "It should be " ++ qualityDescription imageQuality
            ++ lit "." ++ LF
            ++ lit "Remove all shading, gradients, and colors. " ++ LF
            ++ lit "Focus on creating clear, distinct lines suitable for coloring. "
            ++ LF ++ lit "The final image should be purely line art.").
    reflexivity.
  - exists (lit "Transform this image into a black and white coloring book page. "
            ++ LF ++ lit "The output should have clean, simple, and "
            ++ thicknessDescription lineThickness ++ lit ". " ++ LF
            ++ lit "It should be " ++ qualityDescription imageQuality
            ++ lit "." ++ LF).
    exists (lit " " ++ LF
            ++ lit "Focus on creating clear, distinct lines suitable for coloring. "
            ++ LF ++ lit "The final image should be purely line art.").
    destruct lineThickness, imageQuality; reflexivity.
  - exists (lit "Transform this image into a black and white coloring book page. "
            ++ LF ++ lit "The output should have clean, simple, and "
            ++ thicknessDescription lineThickness ++ lit ". " ++ LF
            ++ lit "It should be " ++ qualityDescription imageQuality
            ++ lit "." ++ LF
            ++ lit "Remove all shading, gradients, and colors. " ++ LF
            ++ lit "Focus on creating clear, distinct lines suitable for coloring. "
            ++ LF).
    exists [].
    destruct lineThickness, imageQuality; reflexivity.
Qed.

(** C7. For every input, the one request generateColoringPage submits holds
    (a) the input image with its declared media type, as an inline-data part,
    (b) the composed prompt, as a text part, and (c) a configuration asking
    for the IMAGE and TEXT modalities, under the fixed model identifier
    'gemini-2.5-flash-image-preview'. *)
Theorem request_holds_image_prompt_and_modalities
    (sdk : Sdk) (base64ImageData mimeType : jsstring)
    (lineThickness : LineThickness.t) (imageQuality : ImageQuality.t)
    (w : World) (ai : GoogleGenAI) :
  constructs sdk w ai ->
  exists req,
    sent w
      (final (generateColoringPage sdk base64ImageData mimeType lineThickness
                imageQuality w))
      [req]
    /\ model req = lit "gemini-2.5-flash-image-preview"
    /\ parts (contents req)
       = Some [ {| inlineData := Some {| data := Some base64ImageData;
                                         mimeType := Some mimeType |};
                   text := None |};
                {| inlineData := None;
                   text := Some (prompt lineThickness imageQuality) |} ]
    /\ responseModalities (config req) = [IMAGE; TEXT].
Proof.
  intros Hc.
  exists (request base64ImageData mimeType lineThickness imageQuality).
  split; [|repeat split].
  destruct (run_cases sdk base64ImageData mimeType lineThickness imageQuality w)
    as [[e [He _]] | [[e [_ Hr]] | [[r [i [_ Hr]]] | [r [e [_ Hr]]]]]].
  - unfold constructs in Hc. congruence.
  - rewrite Hr. reflexivity.
  - rewrite Hr. reflexivity.
  - rewrite Hr. reflexivity.
Qed.

Lemma request_holds_image_prompt_and_modalities_witness :
  exists req,
    sent world0
      (final (generateColoringPage (sdk_returning response_image) photo png
                LineThickness.thin ImageQuality.medium world0))
      [req]
    /\ model req = lit "gemini-2.5-flash-image-preview"
    /\ parts (contents req)
       = Some [ {| inlineData := Some {| data := Some photo;
                                         mimeType := Some png |};
                   text := None |};
                {| inlineData := None;
                   text := Some (prompt LineThickness.thin ImageQuality.medium) |} ]
    /\ responseModalities (config req) = [IMAGE; TEXT].
Proof.
  apply (@request_holds_image_prompt_and_modalities
           (sdk_returning response_image) photo png
           LineThickness.thin ImageQuality.medium world0 client0).
  reflexivity.
Defined.

(** C8. generateColoringPage never retries: every invocation, however it
    ends, adds at most one generateContent call to the requests sent, so no
    failure is followed by a second request. *)
Theorem at_most_one_outbound_call
    (sdk : Sdk) (base64ImageData mimeType : jsstring)
    (lineThickness : LineThickness.t) (imageQuality : ImageQuality.t)
    (w : World) :
  exists l,
    sent w
      (final (generateColoringPage sdk base64ImageData mimeType lineThickness
                imageQuality w))
      l
    /\ List.length l <= 1.
Proof.
  destruct (run_cases sdk base64ImageData mimeType lineThickness imageQuality w)
    as [[e [_ Hr]] | [[e [_ Hr]] | [[r [i [_ Hr]]] | [r [e [_ Hr]]]]]];
    rewrite Hr.
  - exists []. split; [unfold sent; simpl; rewrite app_nil_r; reflexivity | simpl; lia].
  - exists [request base64ImageData mimeType lineThickness imageQuality].
    split; [reflexivity | simpl; lia].
  - exists [request base64ImageData mimeType lineThickness imageQuality].
    split; [reflexivity | simpl; lia].
  - exists [request base64ImageData mimeType lineThickness imageQuality].
    split; [reflexivity | simpl; lia].
Qed.

(* ================================================================== *)
(** ** What the caller sees of a failure *)
(* ================================================================== *)

(** C9, as amended. Whenever the client is constructed, so that the call is
    issued, and generateColoringPage fails, be it on an exception of the call
    or on a reply classified as safety-blocked, text-only or without image,
    the value thrown to the caller is an Error whose message starts with
    'An API error occurred: ' or is the fixed unknown-error message. *)
Theorem failure_message_is_prefixed_or_unknown
    (sdk : Sdk) (base64ImageData mimeType : jsstring)
    (lineThickness : LineThickness.t) (imageQuality : ImageQuality.t)
    (w : World) (ai : GoogleGenAI) (e : thrown) :
  constructs sdk w ai ->
  outcome (generateColoringPage sdk base64ImageData mimeType lineThickness
             imageQuality w)
  = Throws e ->
  exists message,
    e = ErrorInstance message
    /\ (startsWith (lit "An API error occurred: ") message
        \/ message
           = lit "An unknown error occurred while communicating with the API.").
Proof.
  intros Hc Hout.
  assert (Hre : forall e0, failure (rethrown e0) = e ->
            exists message,
              e = ErrorInstance message
              /\ (startsWith (lit "An API error occurred: ") message
                  \/ message
                     = lit "An unknown error occurred while communicating with the API.")).
  { intros [msg | v] <-; simpl.
    - exists (api_error_message msg). split; [reflexivity|].
      left. exists msg. reflexivity.
    - exists UNKNOWN_MESSAGE. split; [reflexivity|]. right. reflexivity. }
  destruct (run_cases sdk base64ImageData mimeType lineThickness imageQuality w)
    as [[e0 [He _]] | [[e0 [_ Hr]] | [[r [i [_ Hr]]] | [r [e0 [_ Hr]]]]]].
  - unfold constructs in Hc. congruence.
  - rewrite Hr in Hout. simpl in Hout. apply (Hre e0). congruence.
  - rewrite Hr in Hout. discriminate Hout.
  - rewrite Hr in Hout. simpl in Hout. apply (Hre e0). congruence.
Qed.

Lemma failure_message_is_prefixed_or_unknown_witness :
  exists message,
    failure (ApiError (message_of SafetyBlocked)) = ErrorInstance message
    /\ (startsWith (lit "An API error occurred: ") message
        \/ message
           = lit "An unknown error occurred while communicating with the API.").
Proof.
  apply (@failure_message_is_prefixed_or_unknown
           (sdk_returning response_safety) photo png
           LineThickness.thin ImageQuality.low world0 client0
           (failure (ApiError (message_of SafetyBlocked)))).
  - reflexivity.
  - reflexivity.
Defined.

(** C9 as first stated fails: [new GoogleGenAI] runs before the [try], so
    when it throws, the run fails with that exception as it is, and its
    message neither starts with 'An API error occurred: ' nor is the
    unknown-error message. *)
Lemma constructor_failure_is_not_prefixed :
  outcome (generateColoringPage
             (sdk_unconstructible
                (ErrorInstance
                   (lit "An API Key must be set when running in a browser")))
             photo png LineThickness.thin ImageQuality.low world0)
  = Throws (ErrorInstance
              (lit "An API Key must be set when running in a browser"))
  /\ ~ (exists message,
          ErrorInstance (lit "An API Key must be set when running in a browser")
          = ErrorInstance message
          /\ (startsWith (lit "An API error occurred: ") message
              \/ message
                 = lit "An unknown error occurred while communicating with the API.")).
Proof.
  split; [reflexivity|].
  intros [message [Hm Hform]].
  injection Hm as <-.
  destruct Hform as [[rest Hp] | Hu].
  - vm_compute in Hp. discriminate Hp.
  - vm_compute in Hu. discriminate Hu.
Qed.

(* ================================================================== *)
(** ** Further properties of the service *)
(* ================================================================== *)



(** A reply classified as safety-blocked, text-only or without image gives
    the same thrown error, the same call of [console.error] by the service
    and the same request log as a call that throws the Error of that kind. *)
Theorem classified_reply_runs_like_call_exception
    (sdk1 sdk2 : Sdk) (base64ImageData mimeType : jsstring)
    (lineThickness : LineThickness.t) (imageQuality : ImageQuality.t)
    (w : World) (r : GenerateContentResponse) (k : FailureKind) :
  callEnds sdk1 w (request base64ImageData mimeType lineThickness imageQuality)
    (Normal r) ->
  classifiedAs r k ->
  callEnds sdk2 w (request base64ImageData mimeType lineThickness imageQuality)
    (Throws (failure k)) ->
  generateColoringPage sdk1 base64ImageData mimeType lineThickness imageQuality w
  = generateColoringPage sdk2 base64ImageData mimeType lineThickness imageQuality w.
Proof.
  intros H1 [Hno Hk] H2.
  rewrite (run_thrown H2).
  apply (run_classified H1).
  destruct Hk as [[-> Hs] | [[s [-> [Hs [Ht Hne]]]] | [-> [Hs Ht]]]].
  - apply interpret_safety; assumption.
  - apply interpret_text; assumption.
  - apply interpret_nothing; assumption.
Qed.

Lemma classified_reply_runs_like_call_exception_witness :
  generateColoringPage (sdk_returning response_padded_text) photo png
    LineThickness.thin ImageQuality.low world0
  = generateColoringPage
      (sdk_throwing (failure (TextOnlyResponse (trim (lit "  no image ")))))
      photo png LineThickness.thin ImageQuality.low world0.
Proof.
  apply (@classified_reply_runs_like_call_exception
           (sdk_returning response_padded_text)
           (sdk_throwing (failure (TextOnlyResponse (trim (lit "  no image ")))))
           photo png LineThickness.thin ImageQuality.low world0
           response_padded_text (TextOnlyResponse (trim (lit "  no image ")))).
  - exists client0. split; reflexivity.
  - split; [repeat constructor|].
    right; left. exists (lit "  no image ").
    split; [reflexivity|].
    split; [intros [H | H]; discriminate H|].
    split; [reflexivity | discriminate].
  - exists client0. split; reflexivity.
Defined.

(** Two different choices of thickness and detail level never give the same
    prompt. *)
Theorem prompt_injective
    (t1 t2 : LineThickness.t) (q1 q2 : ImageQuality.t) :
  prompt t1 q1 = prompt t2 q2 -> t1 = t2 /\ q1 = q2.
Proof.
  destruct t1, t2, q1, q2; intros H;
    try (split; reflexivity); vm_compute in H; discriminate H.
Qed.

Lemma prompt_injective_witness :
  LineThickness.medium = LineThickness.medium
  /\ ImageQuality.high = ImageQuality.high.
Proof.
  apply (@prompt_injective LineThickness.medium LineThickness.medium
           ImageQuality.high ImageQuality.high).
  reflexivity.
Defined.

(* ================================================================== *)
(** ** App.tsx: the generate button, the reset button and the view *)
(* ================================================================== *)

Import App.

Section Click.

Variable sdk : Sdk.
Variable s : State.
Variable p : Page.
Variable file : UploadedFile.
Hypothesis has_file : uploadedFile s = Some file.

Local Abbreviation run :=
  (generateColoringPage sdk (base64 file) (App.mimeType file)
     (lineThickness s) (imageQuality s) (world p)).

Lemma click_returns (generatedBase64 : option jsstring) (w : World) :
  run = (Normal generatedBase64, w) ->
  handleGenerateClick sdk s p
  = (started
     ++ [setGeneratedImage
           (Some (lit "data:image/png;base64," ++ template generatedBase64))]
     ++ [setIsLoading false],
     {| world := w; reported := reported p; fileUpload := fileUpload p |}).
Proof.
  intros H. unfold handleGenerateClick. rewrite has_file, H. reflexivity.
Qed.

Lemma click_throws (err : thrown) (w : World) :
  run = (Throws err, w) ->
  handleGenerateClick sdk s p
  = (started ++ [setError (Some (shownMessage err))] ++ [setIsLoading false],
     {| world := w; reported := reported p ++ [err];
        fileUpload := fileUpload p |}).
Proof.
  intros H. unfold handleGenerateClick. rewrite has_file, H. reflexivity.
Qed.

Lemma state_after_success (url : jsstring) :
  applied (started ++ [setGeneratedImage (Some url)] ++ [setIsLoading false]) s
  = {| uploadedFile := Some file;
       generatedImage := Some url;
       isLoading := false;
       error := None;
       lineThickness := lineThickness s;
       imageQuality := imageQuality s |}.
Proof.
  unfold applied, started. simpl. rewrite has_file. reflexivity.
Qed.

Lemma state_after_failure (message : jsstring) :
  applied (started ++ [setError (Some message)] ++ [setIsLoading false]) s
  = {| uploadedFile := Some file;
       generatedImage := None;
       isLoading := false;
       error := Some message;
       lineThickness := lineThickness s;
       imageQuality := imageQuality s |}.
Proof.
  unfold applied, started. simpl. rewrite has_file. reflexivity.
Qed.

Lemma after_success (generatedBase64 : option jsstring) (w : World) :
  run = (Normal generatedBase64, w) ->
  afterGenerate sdk s p
  = {| uploadedFile := Some file;
       generatedImage :=
         Some (lit "data:image/png;base64," ++ template generatedBase64);
       isLoading := false;
       error := None;
       lineThickness := lineThickness s;
       imageQuality := imageQuality s |}.
Proof.
  intros H. unfold afterGenerate. rewrite (click_returns H).
  apply state_after_success.
Qed.

Lemma after_failure (err : thrown) (w : World) :
  run = (Throws err, w) ->
  afterGenerate sdk s p
  = {| uploadedFile := Some file;
       generatedImage := None;
       isLoading := false;
       error := Some (shownMessage err);
       lineThickness := lineThickness s;
       imageQuality := imageQuality s |}.
Proof.
  intros H. unfold afterGenerate. rewrite (click_throws H).
  apply state_after_failure.
Qed.

End Click.

(** The data URL of a result is never the empty string. *)
Lemma data_url_cons (g : option jsstring) :
  exists c url, lit "data:image/png;base64," ++ template g = c :: url.
Proof. eexists. eexists. reflexivity. Qed.

(** If [new GoogleGenAI] throws, a click on the generate button shows the
    message of that exception as it is, without the API-error prefix (or 'An
    unknown error occurred.' when it is not an Error); no request is sent,
    the service logs nothing, and App.tsx alone reports the exception. *)
Theorem constructor_exception_is_shown_unwrapped
    (sdk : Sdk) (s : State) (p : Page) (file : UploadedFile) (e : thrown) :
  uploadedFile s = Some file ->
  construct sdk {| apiKey := process_env_API_KEY (world p) |} = Throws e ->
  afterGenerate sdk s p
  = {| uploadedFile := Some file;
       generatedImage := None;
       isLoading := false;
       error := Some match e with
                     | ErrorInstance message => message
                     | NotAnError _ => lit "An unknown error occurred."
                     end;
       lineThickness := lineThickness s;
       imageQuality := imageQuality s |}
  /\ snd (handleGenerateClick sdk s p)
     = {| world := world p; reported := reported p ++ [e];
          fileUpload := fileUpload p |}.
Proof.
  intros Hf Hc.
  pose proof (run_not_constructed sdk (base64 file) (App.mimeType file)
                (lineThickness s) (imageQuality s) (world p) Hc) as Hr.
  split.
  - rewrite (@after_failure sdk s p file Hf e (world p) Hr).
    destruct e; reflexivity.
  - rewrite (@click_throws sdk s p file Hf e (world p) Hr). reflexivity.
Qed.

Lemma constructor_exception_is_shown_unwrapped_witness :
  afterGenerate
    (sdk_unconstructible (ErrorInstance (lit "An API Key must be set"))) ready page0
  = {| uploadedFile := Some file0;
       generatedImage := None;
       isLoading := false;
       error := Some (lit "An API Key must be set");
       lineThickness := LineThickness.bold;
       imageQuality := ImageQuality.low |}
  /\ snd (handleGenerateClick
           (sdk_unconstructible (ErrorInstance (lit "An API Key must be set")))
           ready page0)
     = {| world := world0;
          reported := [ErrorInstance (lit "An API Key must be set")];
          fileUpload := None |}.
Proof.
  apply (@constructor_exception_is_shown_unwrapped
           (sdk_unconstructible (ErrorInstance (lit "An API Key must be set")))
           ready page0 file0 (ErrorInstance (lit "An API Key must be set"))).
  - reflexivity.
  - reflexivity.
Defined.

(** Without an uploaded file a click on the generate button only sets the
    error 'Please upload an image first.': the loading flag and the rest of
    the state stay as they are, no request is sent and nothing is logged. *)
Theorem generate_without_file
    (sdk : Sdk) (s : State) (p : Page) :
  uploadedFile s = None ->
  afterGenerate sdk s p
  = {| uploadedFile := None;
       generatedImage := generatedImage s;
       isLoading := isLoading s;
       error := Some (lit "Please upload an image first.");
       lineThickness := lineThickness s;
       imageQuality := imageQuality s |}
  /\ snd (handleGenerateClick sdk s p) = p.
Proof.
  intros Hf. unfold afterGenerate, handleGenerateClick. rewrite Hf.
  simpl. rewrite Hf. split; reflexivity.
Qed.

Lemma generate_without_file_witness :
  afterGenerate (sdk_returning response_image) initial page0
  = {| uploadedFile := None;
       generatedImage := None;
       isLoading := false;
       error := Some (lit "Please upload an image first.");
       lineThickness := LineThickness.medium;
       imageQuality := ImageQuality.medium |}
  /\ snd (handleGenerateClick (sdk_returning response_image) initial page0)
     = page0.
Proof.
  apply (@generate_without_file (sdk_returning response_image) initial page0).
  reflexivity.
Defined.

(** With an uploaded file, the setter calls of a click are: loading on, error
    cleared, result cleared, then one call that sets the result or the error,
    then loading off. Applied to any state they leave the loading flag off and
    do not touch the uploaded file or the two options. *)
Theorem generate_ends_with_loading_off
    (sdk : Sdk) (s current : State) (p : Page) (file : UploadedFile) :
  uploadedFile s = Some file ->
  exists outcomeCall,
    fst (handleGenerateClick sdk s p)
    = [setIsLoading true; setError None; setGeneratedImage None]
      ++ [outcomeCall] ++ [setIsLoading false]
    /\ ((exists url, outcomeCall = setGeneratedImage (Some url))
        \/ (exists message, outcomeCall = setError (Some message)))
    /\ isLoading (applied (fst (handleGenerateClick sdk s p)) current) = false
    /\ uploadedFile (applied (fst (handleGenerateClick sdk s p)) current)
       = uploadedFile current
    /\ lineThickness (applied (fst (handleGenerateClick sdk s p)) current)
       = lineThickness current
    /\ imageQuality (applied (fst (handleGenerateClick sdk s p)) current)
       = imageQuality current.
Proof.
  intros Hf.
  destruct (generateColoringPage sdk (base64 file) (App.mimeType file)
              (lineThickness s) (imageQuality s) (world p))
    as [[g | err] w] eqn:Hr.
  - rewrite (@click_returns sdk s p file Hf g w Hr).
    eexists. split; [reflexivity|].
    split; [left; eexists; reflexivity|]. repeat split.
  - rewrite (@click_throws sdk s p file Hf err w Hr).
    eexists. split; [reflexivity|].
    split; [right; eexists; reflexivity|]. repeat split.
Qed.

Lemma generate_ends_with_loading_off_witness :
  exists outcomeCall,
    fst (handleGenerateClick (sdk_returning response_safety) ready page0)
    = [setIsLoading true; setError None; setGeneratedImage None]
      ++ [outcomeCall] ++ [setIsLoading false]
    /\ ((exists url, outcomeCall = setGeneratedImage (Some url))
        \/ (exists message, outcomeCall = setError (Some message)))
    /\ isLoading (applied (fst (handleGenerateClick
                                 (sdk_returning response_safety) ready page0))
                    initial) = false
    /\ uploadedFile (applied (fst (handleGenerateClick
                                    (sdk_returning response_safety) ready page0))
                       initial)
       = uploadedFile initial
    /\ lineThickness (applied (fst (handleGenerateClick
                                     (sdk_returning response_safety) ready page0))
                        initial)
       = lineThickness initial
    /\ imageQuality (applied (fst (handleGenerateClick
                                    (sdk_returning response_safety) ready page0))
                       initial)
       = imageQuality initial.
Proof.
  apply (@generate_ends_with_loading_off (sdk_returning response_safety)
           ready initial page0 file0).
  reflexivity.
Defined.

(** When the reply holds an inline-data part in its first candidate, a click
    ends in the result view: the coloring page shown is 'data:image/png;base64,'
    followed by the data of the first such part, whatever media type that part
    declares and whatever the finish reason; the error is cleared and the
    original preview is kept. *)
Theorem generate_success_shows_png_data_url
    (sdk : Sdk) (s : State) (p : Page) (file : UploadedFile)
    (r : GenerateContentResponse) :
  uploadedFile s = Some file ->
  callEnds sdk (world p)
    (request (base64 file) (App.mimeType file) (lineThickness s) (imageQuality s))
    (Normal r) ->
  Exists (fun part => inlineData part <> None) (scannedParts r) ->
  exists before imagePart after blob,
    scannedParts r = before ++ imagePart :: after
    /\ Forall (fun part => inlineData part = None) before
    /\ inlineData imagePart = Some blob
    /\ afterGenerate sdk s p
       = {| uploadedFile := Some file;
            generatedImage :=
              Some (lit "data:image/png;base64," ++ template (data blob));
            isLoading := false;
            error := None;
            lineThickness := lineThickness s;
            imageQuality := imageQuality s |}
    /\ CurrentView (afterGenerate sdk s p)
       = ResultState (previewUrl file)
           (lit "data:image/png;base64," ++ template (data blob)).
Proof.
  intros Hf Hends Hex.
  destruct (first_inline_split Hex)
    as [before [part [after [blob [Hs [Hb Hp]]]]]].
  exists before, part, after, blob. repeat split; try assumption.
  - eapply after_success; [eassumption|].
    eapply run_succeeds; [eassumption|].
    eapply interpret_image; eassumption.
  - erewrite after_success; [reflexivity | eassumption |].
    eapply run_succeeds; [eassumption|].
    eapply interpret_image; eassumption.
Qed.

Lemma generate_success_shows_png_data_url_witness :
  exists before imagePart after blob,
    scannedParts response_jpeg = before ++ imagePart :: after
    /\ Forall (fun part => inlineData part = None) before
    /\ inlineData imagePart = Some blob
    /\ afterGenerate (sdk_returning response_jpeg) ready page0
       = {| uploadedFile := Some file0;
            generatedImage :=
              Some (lit "data:image/png;base64," ++ template (data blob));
            isLoading := false;
            error := None;
            lineThickness := lineThickness ready;
            imageQuality := imageQuality ready |}
    /\ CurrentView (afterGenerate (sdk_returning response_jpeg) ready page0)
       = ResultState (previewUrl file0)
           (lit "data:image/png;base64," ++ template (data blob)).
Proof.
  apply (@generate_success_shows_png_data_url (sdk_returning response_jpeg)
           ready page0 file0 response_jpeg).
  - reflexivity.
  - exists client0. split; reflexivity.
  - apply Exists_cons_hd. discriminate.
Defined.

(** When the call is issued and the service fails, a click ends in the
    processing view without spinner, showing the message of the thrown Error,
    which starts with 'An API error occurred: ' or is the service's
    unknown-error message, so never the fallback text of App.tsx; the result
    stays empty and App.tsx reports the thrown Error. *)
Theorem generate_failure_shows_service_message
    (sdk : Sdk) (s : State) (p : Page) (file : UploadedFile)
    (ai : GoogleGenAI) (e : thrown) :
  uploadedFile s = Some file ->
  constructs sdk (world p) ai ->
  outcome (generateColoringPage sdk (base64 file) (App.mimeType file)
             (lineThickness s) (imageQuality s) (world p))
  = Throws e ->
  exists message,
    e = ErrorInstance message
    /\ (startsWith (lit "An API error occurred: ") message
        \/ message
           = lit "An unknown error occurred while communicating with the API.")
    /\ message <> lit "An unknown error occurred."
    /\ CurrentView (afterGenerate sdk s p)
       = ProcessingState (previewUrl file) (lineThickness s) (imageQuality s)
           false (Some message)
    /\ generatedImage (afterGenerate sdk s p) = None
    /\ reported (snd (handleGenerateClick sdk s p)) = reported p ++ [e].
Proof.
  intros Hf Hc Hout.
  destruct (generateColoringPage sdk (base64 file) (App.mimeType file)
              (lineThickness s) (imageQuality s) (world p))
    as [o w] eqn:Hr.
  simpl in Hout. subst o.
  assert (Hform : exists caught, e = failure (rethrown caught)).
  { destruct (run_cases sdk (base64 file) (App.mimeType file)
                (lineThickness s) (imageQuality s) (world p))
      as [[e0 [He _]] | [[e0 [_ H]] | [[r [i [_ H]]] | [r [e0 [_ H]]]]]].
    - unfold constructs in Hc. congruence.
    - exists e0. congruence.
    - congruence.
    - exists e0. congruence. }
  destruct Hform as [caught ->].
  exists (message_of (rethrown caught)).
  split; [reflexivity|].
  split; [destruct caught as [msg | v]; [left; exists msg | right]; reflexivity|].
  split; [destruct caught; simpl; discriminate|].
  rewrite (@after_failure sdk s p file Hf _ w Hr).
  rewrite (@click_throws sdk s p file Hf _ w Hr).
  repeat split.
Qed.

Lemma generate_failure_shows_service_message_witness :
  exists message,
    failure UnknownError = ErrorInstance message
    /\ (startsWith (lit "An API error occurred: ") message
        \/ message
           = lit "An unknown error occurred while communicating with the API.")
    /\ message <> lit "An unknown error occurred."
    /\ CurrentView (afterGenerate (sdk_throwing (NotAnError VUndefined)) ready page0)
       = ProcessingState (previewUrl file0) (lineThickness ready)
           (imageQuality ready) false (Some message)
    /\ generatedImage (afterGenerate (sdk_throwing (NotAnError VUndefined))
                         ready page0) = None
    /\ reported (snd (handleGenerateClick (sdk_throwing (NotAnError VUndefined))
                        ready page0))
       = reported page0 ++ [failure UnknownError].
Proof.
  apply (@generate_failure_shows_service_message
           (sdk_throwing (NotAnError VUndefined)) ready page0 file0 client0
           (failure UnknownError)).
  - reflexivity.
  - reflexivity.
  - reflexivity.
Defined.

(** A reply classified as safety-blocked, text-only or without image is
    shown to the user as 'An API error occurred: ' followed by the message of
    that kind, in the processing view. *)
Theorem classified_reply_is_shown_with_api_prefix
    (sdk : Sdk) (s : State) (p : Page) (file : UploadedFile)
    (r : GenerateContentResponse) (k : FailureKind) :
  uploadedFile s = Some file ->
  callEnds sdk (world p)
    (request (base64 file) (App.mimeType file) (lineThickness s) (imageQuality s))
    (Normal r) ->
  classifiedAs r k ->
  CurrentView (afterGenerate sdk s p)
  = ProcessingState (previewUrl file) (lineThickness s) (imageQuality s) false
      (Some (lit "An API error occurred: " ++ message_of k)).
Proof.
  intros Hf Hends [Hno Hk].
  assert (Hi : forall w0, interpret r w0 = (Throws (failure k), w0)).
  { intros w0.
    destruct Hk as [[-> Hs] | [[t [-> [Hs [Ht Hne]]]] | [-> [Hs Ht]]]].
    - apply interpret_safety; assumption.
    - apply interpret_text; assumption.
    - apply interpret_nothing; assumption. }
  pose proof (run_classified Hends (Hi _)) as Hr.
  rewrite (@after_failure sdk s p file Hf _ _ Hr). reflexivity.
Qed.

Lemma classified_reply_is_shown_with_api_prefix_witness :
  CurrentView (afterGenerate (sdk_returning response_safety) ready page0)
  = ProcessingState (lit "blob:preview") LineThickness.bold ImageQuality.low false
      (Some (lit "An API error occurred: Image generation was blocked due to safety or policy reasons.")).
Proof.
  apply (@classified_reply_is_shown_with_api_prefix
           (sdk_returning response_safety) ready page0 file0 response_safety
           SafetyBlocked).
  - reflexivity.
  - exists client0. split; reflexivity.
  - split; [constructor|]. left. split; [reflexivity | left; reflexivity].
Defined.

(** After a click with an uploaded file the page shows either the result
    view with a non-empty coloring page and no error, or the processing view
    without spinner and with an error set; never both a result and an error,
    and never the upload view or an empty page. *)
Theorem generate_shows_result_or_error
    (sdk : Sdk) (s : State) (p : Page) (file : UploadedFile) :
  uploadedFile s = Some file ->
  (exists c url,
     generatedImage (afterGenerate sdk s p) = Some (c :: url)
     /\ error (afterGenerate sdk s p) = None
     /\ CurrentView (afterGenerate sdk s p)
        = ResultState (previewUrl file) (c :: url))
  \/ (exists message,
        generatedImage (afterGenerate sdk s p) = None
        /\ error (afterGenerate sdk s p) = Some message
        /\ CurrentView (afterGenerate sdk s p)
           = ProcessingState (previewUrl file) (lineThickness s)
               (imageQuality s) false (Some message)).
Proof.
  intros Hf.
  destruct (generateColoringPage sdk (base64 file) (App.mimeType file)
              (lineThickness s) (imageQuality s) (world p))
    as [[g | err] w] eqn:Hr.
  - left. rewrite (@after_success sdk s p file Hf g w Hr).
    destruct (data_url_cons g) as [c [url Hu]]. rewrite Hu.
    exists c, url. repeat split.
  - right. rewrite (@after_failure sdk s p file Hf err w Hr).
    exists (shownMessage err). repeat split.
Qed.

Lemma generate_shows_result_or_error_witness :
  (exists c url,
     generatedImage (afterGenerate (sdk_returning response_image) ready page0)
     = Some (c :: url)
     /\ error (afterGenerate (sdk_returning response_image) ready page0) = None
     /\ CurrentView (afterGenerate (sdk_returning response_image) ready page0)
        = ResultState (previewUrl file0) (c :: url))
  \/ (exists message,
        generatedImage (afterGenerate (sdk_returning response_image) ready page0)
        = None
        /\ error (afterGenerate (sdk_returning response_image) ready page0)
           = Some message
        /\ CurrentView (afterGenerate (sdk_returning response_image) ready page0)
           = ProcessingState (previewUrl file0) (lineThickness ready)
               (imageQuality ready) false (Some message)).
Proof.
  apply (@generate_shows_result_or_error (sdk_returning response_image)
           ready page0 file0).
  reflexivity.
Defined.

(** A click on the generate button sends at most one request, whatever the
    state, the library and the outcome. *)
Theorem generate_click_sends_at_most_one_request
    (sdk : Sdk) (s : State) (p : Page) :
  exists l,
    sent (world p) (world (snd (handleGenerateClick sdk s p))) l
    /\ List.length l <= 1.
Proof.
  destruct (uploadedFile s) as [file|] eqn:Hf.
  - assert (Hw : world (snd (handleGenerateClick sdk s p))
                 = final (generateColoringPage sdk (base64 file)
                            (App.mimeType file) (lineThickness s)
                            (imageQuality s) (world p))).
    { destruct (generateColoringPage sdk (base64 file) (App.mimeType file)
                  (lineThickness s) (imageQuality s) (world p))
        as [[g | err] w] eqn:Hr.
      - rewrite (@click_returns sdk s p file Hf g w Hr). reflexivity.
      - rewrite (@click_throws sdk s p file Hf err w Hr). reflexivity. }
    rewrite Hw.
    destruct (run_cases sdk (base64 file) (App.mimeType file)
                (lineThickness s) (imageQuality s) (world p))
      as [[e [_ Hr]] | [[e [_ Hr]] | [[r [i [_ Hr]]] | [r [e [_ Hr]]]]]];
      rewrite Hr.
    + exists []. split; [unfold sent; simpl; rewrite app_nil_r; reflexivity
                        | simpl; lia].
    + eexists [_]. split; [reflexivity | simpl; lia].
    + eexists [_]. split; [reflexivity | simpl; lia].
    + eexists [_]. split; [reflexivity | simpl; lia].
  - exists []. unfold handleGenerateClick. rewrite Hf. simpl.
    split; [unfold sent; rewrite app_nil_r; reflexivity | lia].
Qed.

(** A reset clears the uploaded file, the result, the error and the loading
    flag, but keeps the chosen thickness and detail level; the page goes back
    to the upload view with no error, the file input is emptied when it is in
    the document, and nothing is sent or logged. *)
Theorem reset_returns_to_upload_view (s : State) (p : Page) :
  afterReset s p
  = {| uploadedFile := None;
       generatedImage := None;
       isLoading := false;
       error := None;
       lineThickness := lineThickness s;
       imageQuality := imageQuality s |}
  /\ CurrentView (afterReset s p) = InitialState None
  /\ world (snd (handleReset p)) = world p
  /\ reported (snd (handleReset p)) = reported p
  /\ fileUpload (snd (handleReset p))
     = option_map (fun _ => []) (fileUpload p).
Proof.
  repeat split.
Qed.

(** The page is empty exactly when a generated image is present without an
    uploaded file: the result view needs both. *)
Theorem view_is_empty_iff (s : State) :
  CurrentView s = Nothing
  <-> uploadedFile s = None
      /\ exists c url, generatedImage s = Some (c :: url).
Proof.
  unfold CurrentView, renderResultState, renderProcessingState,
    renderInitialState.
  destruct (generatedImage s) as [[|c url]|];
    destruct (uploadedFile s) as [file|]; split;
    try discriminate;
    try (intros [H [c0 [u0 H0]]]; discriminate);
    try (intros _; split; [reflexivity | eexists; eexists; reflexivity]);
    try reflexivity.
Qed.
